(** * The rustdoc implementors table for [core::ops::index::Index]

    A verification development for
    [src/implementors/core/ops/index/trait.Index.js]: one immediately
    invoked function that builds the object [implementors] by nine indexed
    assignments and then either calls [window.register_implementors] with it
    or stores it in [window.pending_implementors].

    The embedding keeps the JavaScript reading of every step: objects are
    ordered property lists, [if (e)] tests the truthiness of [e], calling a
    value that is not a function raises a [TypeError], and the hook is code
    of the page, so its behaviour is a parameter of the run. *)

From stdpp Require Import gmap strings list fin_maps.
From Stdlib Require Import ZArith Ascii String Sorted.

Set Warnings "-register-all".
Open Scope string_scope.

(** ** JavaScript values *)

(** Functions of the host page are referred to by an identifier; what they do
    when called is given by the [Host] below. Kinds of value without a
    constructor here (fractional numbers, big integers, symbols) do not
    occur in the script; in the hook slot they would act as a value of the
    same truthiness that is not a function. *)
Definition fid := nat.

Inductive value : Type :=
| VUndefined
| VNull
| VBool (b : bool)
| VNum (n : Z)
| VNaN
| VStr (s : string)
| VArr (elems : list value)
| VObj (props : list (string * value))
| VFun (f : fid).

(** [ToBoolean]: what [if (v)] tests. *)
Definition to_boolean (v : value) : bool :=
  match v with
  | VUndefined | VNull | VNaN => false
  | VBool b => b
  | VNum n => negb (n =? 0)%Z
  | VStr s => negb (String.length s =? 0)%nat
  | VArr _ | VObj _ | VFun _ => true
  end.

Definition callable (v : value) : bool :=
  match v with VFun _ => true | _ => false end.

(** ** Objects as ordered property lists

    Own properties in insertion order. This is how an object behaves for
    keys such as the script's nine: strings that are neither array indices
    (which JavaScript enumerates first, in numeric order) nor [__proto__]
    (which JavaScript does not store as an own property). [ordinary_key]
    below names them. *)

Definition props := list (string * value).

(** [o[k]] *)
Fixpoint obj_get (o : props) (k : string) : option value :=
  match o with
  | [] => None
  | (k', v) :: o' => if String.eqb k' k then Some v else obj_get o' k
  end.

(** [o[k] = v]: an existing property keeps its place, a new one goes last. *)
Fixpoint obj_set (o : props) (k : string) (v : value) : props :=
  match o with
  | [] => [(k, v)]
  | (k', v') :: o' =>
      if String.eqb k' k then (k', v) :: o' else (k', v') :: obj_set o' k v
  end.

(** [Object.keys(o)] *)
Definition obj_keys (o : props) : list string := map fst o.

(** A key for which the property list is faithful: it does not start with
    a digit (so it is no array index) and it is not [__proto__]. *)
Definition ordinary_key (k : string) : bool :=
  match k with
  | EmptyString => true
  | String c _ => negb ((48 <=? nat_of_ascii c)%nat && (nat_of_ascii c <=? 57)%nat)
  end
  && negb (String.eqb k "__proto__").

(** ** String literals

    The markup strings of the source are full of escaped double quotes.
    Here a literal is written with a backquote wherever the JavaScript
    literal has an escaped double quote (the source uses no backquote), and
    [lit] puts the double quotes back. *)

Definition dquote : ascii := ascii_of_nat 34.
Definition bquote : ascii := ascii_of_nat 96.

Fixpoint lit (s : string) : string :=
  match s with
  | EmptyString => EmptyString
  | String c s' => String (if Ascii.eqb c bquote then dquote else c) (lit s')
  end.

(** How many times [needle] occurs in [hay]; used to look inside markup. *)
Fixpoint count_infix (needle hay : string) : nat :=
  match hay with
  | EmptyString => 0
  | String _ hay' =>
      (if String.prefix needle hay then 1 else 0) + count_infix needle hay'
  end.

(** ** The machine: window, the local variable, errors and own actions *)

(** The script runs in a browser page (the global [window] exists, its
    properties are plain data properties). A missing property reads as
    [undefined]. *)
Definition window_get (w : gmap string value) (k : string) : value :=
  default VUndefined (w !! k).

Inductive thrown : Type :=
| TypeError (what : string)
| Raised (v : value).

Inductive completion (A : Type) : Type :=
| Normal (a : A)
| Throw (e : thrown).
Arguments Normal {A} a.
Arguments Throw {A} e.

(** What the script itself does to the page: calls it makes and global
    properties it writes. Effects of the called hook are the hook's own. *)
Inductive event : Type :=
| EvCall (f : fid) (args : list value)
| EvWrite (slot : string) (v : value).

(** The page's functions: called with arguments on a window, a function
    returns or throws, and leaves a window behind. The script reads nothing
    after the call, so what the hook does with the object it was given does
    not show in the run. *)
Record Host : Type := {
  host_call : fid -> list value -> gmap string value ->
              completion value * gmap string value
}.

Record machine : Type := {
  window : gmap string value;
  implementors : option props;   (* the local [var implementors]; [None]
                                    until its initialiser has run *)
  trace : list event
}.

Definition M (A : Type) : Type := machine -> completion A * machine.

Definition ret {A} (a : A) : M A := fun m => (Normal a, m).

Definition bind {A B} (c : M A) (k : A -> M B) : M B :=
  fun m =>
    match c m with
    | (Normal a, m') => k a m'
    | (Throw e, m') => (Throw e, m')
    end.

Definition throw {A} (e : thrown) : M A := fun m => (Throw e, m).

#[global] Instance M_ret : MRet M := @ret.
#[global] Instance M_bind : MBind M := fun A B k c => bind c k.

(** [var implementors = {};] *)
Definition declare_implementors : M unit :=
  fun m => (Normal tt,
            {| window := window m; implementors := Some []; trace := trace m |}).

(** [implementors[k] = v;] *)
Definition assign_implementors (k : string) (v : value) : M unit :=
  fun m =>
    match implementors m with
    | Some o =>
        (Normal tt,
         {| window := window m; implementors := Some (obj_set o k v);
            trace := trace m |})
    | None => throw (TypeError "cannot set properties of undefined") m
    end.

(** the expression [implementors] *)
Definition read_implementors : M value :=
  fun m => (Normal (from_option VObj VUndefined (implementors m)), m).

(** the expression [window.k] *)
Definition read_window (k : string) : M value :=
  fun m => (Normal (window_get (window m) k), m).

(** [window.k = v;] *)
Definition write_window (k : string) (v : value) : M unit :=
  fun m => (Normal tt,
            {| window := <[k := v]> (window m); implementors := implementors m;
               trace := trace m ++ [EvWrite k v] |}).

(** [callee(args)] *)
Definition call (h : Host) (callee : value) (args : list value) : M value :=
  fun m =>
    match callee with
    | VFun f =>
        let '(c, w') := host_call h f args (window m) in
        (c, {| window := w'; implementors := implementors m;
               trace := trace m ++ [EvCall f args] |})
    | _ => throw (TypeError "not a function") m
    end.

(** ** The data literals

    One definition per right-hand side of the nine assignments, in the order
    of the source. *)

Definition bytes_impls : value :=
  VArr [
    VObj [("text", VStr (lit "impl <a class=`trait` href=`https://doc.rust-lang.org/nightly/core/ops/index/trait.Index.html` title=`trait core::ops::index::Index`>Index</a>&lt;<a class=`struct` href=`https://doc.rust-lang.org/nightly/core/ops/range/struct.Range.html` title=`struct core::ops::range::Range`>Range</a>&lt;<a class=`primitive` href=`https://doc.rust-lang.org/nightly/std/primitive.usize.html`>usize</a>&gt;&gt; for <a class=`struct` href=`bytes/buf/struct.UninitSlice.html` title=`struct bytes::buf::UninitSlice`>UninitSlice</a>"));
          ("synthetic", VBool false);
          ("types", VArr [VStr "bytes::buf::uninit_slice::UninitSlice"])];
    VObj [("text", VStr (lit "impl <a class=`trait` href=`https://doc.rust-lang.org/nightly/core/ops/index/trait.Index.html` title=`trait core::ops::index::Index`>Index</a>&lt;<a class=`struct` href=`https://doc.rust-lang.org/nightly/core/ops/range/struct.RangeFrom.html` title=`struct core::ops::range::RangeFrom`>RangeFrom</a>&lt;<a class=`primitive` href=`https://doc.rust-lang.org/nightly/std/primitive.usize.html`>usize</a>&gt;&gt; for <a class=`struct` href=`bytes/buf/struct.UninitSlice.html` title=`struct bytes::buf::UninitSlice`>UninitSlice</a>"));
          ("synthetic", VBool false);
          ("types", VArr [VStr "bytes::buf::uninit_slice::UninitSlice"])];
    VObj [("text", VStr (lit "impl <a class=`trait` href=`https://doc.rust-lang.org/nightly/core/ops/index/trait.Index.html` title=`trait core::ops::index::Index`>Index</a>&lt;<a class=`struct` href=`https://doc.rust-lang.org/nightly/core/ops/range/struct.RangeFull.html` title=`struct core::ops::range::RangeFull`>RangeFull</a>&gt; for <a class=`struct` href=`bytes/buf/struct.UninitSlice.html` title=`struct bytes::buf::UninitSlice`>UninitSlice</a>"));
          ("synthetic", VBool false);
          ("types", VArr [VStr "bytes::buf::uninit_slice::UninitSlice"])];
    VObj [("text", VStr (lit "impl <a class=`trait` href=`https://doc.rust-lang.org/nightly/core/ops/index/trait.Index.html` title=`trait core::ops::index::Index`>Index</a>&lt;<a class=`struct` href=`https://doc.rust-lang.org/nightly/core/ops/range/struct.RangeInclusive.html` title=`struct core::ops::range::RangeInclusive`>RangeInclusive</a>&lt;<a class=`primitive` href=`https://doc.rust-lang.org/nightly/std/primitive.usize.html`>usize</a>&gt;&gt; for <a class=`struct` href=`bytes/buf/struct.UninitSlice.html` title=`struct bytes::buf::UninitSlice`>UninitSlice</a>"));
          ("synthetic", VBool false);
          ("types", VArr [VStr "bytes::buf::uninit_slice::UninitSlice"])];
    VObj [("text", VStr (lit "impl <a class=`trait` href=`https://doc.rust-lang.org/nightly/core/ops/index/trait.Index.html` title=`trait core::ops::index::Index`>Index</a>&lt;<a class=`struct` href=`https://doc.rust-lang.org/nightly/core/ops/range/struct.RangeTo.html` title=`struct core::ops::range::RangeTo`>RangeTo</a>&lt;<a class=`primitive` href=`https://doc.rust-lang.org/nightly/std/primitive.usize.html`>usize</a>&gt;&gt; for <a class=`struct` href=`bytes/buf/struct.UninitSlice.html` title=`struct bytes::buf::UninitSlice`>UninitSlice</a>"));
          ("synthetic", VBool false);
          ("types", VArr [VStr "bytes::buf::uninit_slice::UninitSlice"])];
    VObj [("text", VStr (lit "impl <a class=`trait` href=`https://doc.rust-lang.org/nightly/core/ops/index/trait.Index.html` title=`trait core::ops::index::Index`>Index</a>&lt;<a class=`struct` href=`https://doc.rust-lang.org/nightly/core/ops/range/struct.RangeToInclusive.html` title=`struct core::ops::range::RangeToInclusive`>RangeToInclusive</a>&lt;<a class=`primitive` href=`https://doc.rust-lang.org/nightly/std/primitive.usize.html`>usize</a>&gt;&gt; for <a class=`struct` href=`bytes/buf/struct.UninitSlice.html` title=`struct bytes::buf::UninitSlice`>UninitSlice</a>"));
          ("synthetic", VBool false);
          ("types", VArr [VStr "bytes::buf::uninit_slice::UninitSlice"])]
  ].

Definition hashbrown_impls : value :=
  VArr [
    VObj [("text", VStr (lit "impl&lt;K, Q:&nbsp;?<a class=`trait` href=`https://doc.rust-lang.org/nightly/core/marker/trait.Sized.html` title=`trait core::marker::Sized`>Sized</a>, V, S&gt; <a class=`trait` href=`https://doc.rust-lang.org/nightly/core/ops/index/trait.Index.html` title=`trait core::ops::index::Index`>Index</a>&lt;&amp;'_ Q&gt; for <a class=`struct` href=`hashbrown/hash_map/struct.HashMap.html` title=`struct hashbrown::hash_map::HashMap`>HashMap</a>&lt;K, V, S&gt; <span class=`where fmt-newline`>where<br>&nbsp;&nbsp;&nbsp;&nbsp;K: <a class=`trait` href=`https://doc.rust-lang.org/nightly/core/cmp/trait.Eq.html` title=`trait core::cmp::Eq`>Eq</a> + <a class=`trait` href=`https://doc.rust-lang.org/nightly/core/hash/trait.Hash.html` title=`trait core::hash::Hash`>Hash</a> + <a class=`trait` href=`https://doc.rust-lang.org/nightly/core/borrow/trait.Borrow.html` title=`trait core::borrow::Borrow`>Borrow</a>&lt;Q&gt;,<br>&nbsp;&nbsp;&nbsp;&nbsp;Q: <a class=`trait` href=`https://doc.rust-lang.org/nightly/core/cmp/trait.Eq.html` title=`trait core::cmp::Eq`>Eq</a> + <a class=`trait` href=`https://doc.rust-lang.org/nightly/core/hash/trait.Hash.html` title=`trait core::hash::Hash`>Hash</a>,<br>&nbsp;&nbsp;&nbsp;&nbsp;S: <a class=`trait` href=`https://doc.rust-lang.org/nightly/core/hash/trait.BuildHasher.html` title=`trait core::hash::BuildHasher`>BuildHasher</a>,&nbsp;</span>"));
          ("synthetic", VBool false);
          ("types", VArr [VStr "hashbrown::map::HashMap"])]
  ].

Definition http_impls : value :=
  VArr [
    VObj [("text", VStr (lit "impl&lt;'a, K, T&gt; <a class=`trait` href=`https://doc.rust-lang.org/nightly/core/ops/index/trait.Index.html` title=`trait core::ops::index::Index`>Index</a>&lt;K&gt; for <a class=`struct` href=`http/header/struct.HeaderMap.html` title=`struct http::header::HeaderMap`>HeaderMap</a>&lt;T&gt; <span class=`where fmt-newline`>where<br>&nbsp;&nbsp;&nbsp;&nbsp;K: <a class=`trait` href=`http/header/trait.AsHeaderName.html` title=`trait http::header::AsHeaderName`>AsHeaderName</a>,&nbsp;</span>"));
          ("synthetic", VBool false);
          ("types", VArr [VStr "http::header::map::HeaderMap"])]
  ].

Definition indexmap_impls : value :=
  VArr [
    VObj [("text", VStr (lit "impl&lt;K, V, Q:&nbsp;?<a class=`trait` href=`https://doc.rust-lang.org/nightly/core/marker/trait.Sized.html` title=`trait core::marker::Sized`>Sized</a>, S&gt; <a class=`trait` href=`https://doc.rust-lang.org/nightly/core/ops/index/trait.Index.html` title=`trait core::ops::index::Index`>Index</a>&lt;<a class=`primitive` href=`https://doc.rust-lang.org/nightly/std/primitive.reference.html`>&amp;'_ </a>Q&gt; for <a class=`struct` href=`indexmap/map/struct.IndexMap.html` title=`struct indexmap::map::IndexMap`>IndexMap</a>&lt;K, V, S&gt; <span class=`where fmt-newline`>where<br>&nbsp;&nbsp;&nbsp;&nbsp;Q: <a class=`trait` href=`https://doc.rust-lang.org/nightly/core/hash/trait.Hash.html` title=`trait core::hash::Hash`>Hash</a> + <a class=`trait` href=`indexmap/trait.Equivalent.html` title=`trait indexmap::Equivalent`>Equivalent</a>&lt;K&gt;,<br>&nbsp;&nbsp;&nbsp;&nbsp;K: <a class=`trait` href=`https://doc.rust-lang.org/nightly/core/hash/trait.Hash.html` title=`trait core::hash::Hash`>Hash</a> + <a class=`trait` href=`https://doc.rust-lang.org/nightly/core/cmp/trait.Eq.html` title=`trait core::cmp::Eq`>Eq</a>,<br>&nbsp;&nbsp;&nbsp;&nbsp;S: <a class=`trait` href=`https://doc.rust-lang.org/nightly/core/hash/trait.BuildHasher.html` title=`trait core::hash::BuildHasher`>BuildHasher</a>,&nbsp;</span>"));
          ("synthetic", VBool false);
          ("types", VArr [VStr "indexmap::map::IndexMap"])];
    VObj [("text", VStr (lit "impl&lt;K, V, S&gt; <a class=`trait` href=`https://doc.rust-lang.org/nightly/core/ops/index/trait.Index.html` title=`trait core::ops::index::Index`>Index</a>&lt;<a class=`primitive` href=`https://doc.rust-lang.org/nightly/std/primitive.usize.html`>usize</a>&gt; for <a class=`struct` href=`indexmap/map/struct.IndexMap.html` title=`struct indexmap::map::IndexMap`>IndexMap</a>&lt;K, V, S&gt;"));
          ("synthetic", VBool false);
          ("types", VArr [VStr "indexmap::map::IndexMap"])];
    VObj [("text", VStr (lit "impl&lt;T, S&gt; <a class=`trait` href=`https://doc.rust-lang.org/nightly/core/ops/index/trait.Index.html` title=`trait core::ops::index::Index`>Index</a>&lt;<a class=`primitive` href=`https://doc.rust-lang.org/nightly/std/primitive.usize.html`>usize</a>&gt; for <a class=`struct` href=`indexmap/set/struct.IndexSet.html` title=`struct indexmap::set::IndexSet`>IndexSet</a>&lt;T, S&gt;"));
          ("synthetic", VBool false);
          ("types", VArr [VStr "indexmap::set::IndexSet"])]
  ].

Definition openssl_impls : value :=
  VArr [
    VObj [("text", VStr (lit "impl&lt;T:&nbsp;<a class=`trait` href=`openssl/stack/trait.Stackable.html` title=`trait openssl::stack::Stackable`>Stackable</a>&gt; <a class=`trait` href=`https://doc.rust-lang.org/nightly/core/ops/index/trait.Index.html` title=`trait core::ops::index::Index`>Index</a>&lt;<a class=`primitive` href=`https://doc.rust-lang.org/nightly/std/primitive.usize.html`>usize</a>&gt; for <a class=`struct` href=`openssl/stack/struct.StackRef.html` title=`struct openssl::stack::StackRef`>StackRef</a>&lt;T&gt;"));
          ("synthetic", VBool false);
          ("types", VArr [VStr "openssl::stack::StackRef"])]
  ].

Definition slab_impls : value :=
  VArr [
    VObj [("text", VStr (lit "impl&lt;T&gt; <a class=`trait` href=`https://doc.rust-lang.org/nightly/core/ops/index/trait.Index.html` title=`trait core::ops::index::Index`>Index</a>&lt;<a class=`primitive` href=`https://doc.rust-lang.org/nightly/std/primitive.usize.html`>usize</a>&gt; for <a class=`struct` href=`slab/struct.Slab.html` title=`struct slab::Slab`>Slab</a>&lt;T&gt;"));
          ("synthetic", VBool false);
          ("types", VArr [VStr "slab::Slab"])]
  ].

Definition syn_impls : value :=
  VArr [
    VObj [("text", VStr (lit "impl&lt;T, P&gt; <a class=`trait` href=`https://doc.rust-lang.org/nightly/core/ops/index/trait.Index.html` title=`trait core::ops::index::Index`>Index</a>&lt;<a class=`primitive` href=`https://doc.rust-lang.org/nightly/std/primitive.usize.html`>usize</a>&gt; for <a class=`struct` href=`syn/punctuated/struct.Punctuated.html` title=`struct syn::punctuated::Punctuated`>Punctuated</a>&lt;T, P&gt;"));
          ("synthetic", VBool false);
          ("types", VArr [VStr "syn::punctuated::Punctuated"])]
  ].

Definition tinyvec_impls : value :=
  VArr [
    VObj [("text", VStr (lit "impl&lt;A:&nbsp;<a class=`trait` href=`tinyvec/trait.Array.html` title=`trait tinyvec::Array`>Array</a>, I:&nbsp;<a class=`trait` href=`https://doc.rust-lang.org/nightly/core/slice/index/trait.SliceIndex.html` title=`trait core::slice::index::SliceIndex`>SliceIndex</a>&lt;[A::<a class=`type` href=`tinyvec/trait.Array.html#associatedtype.Item` title=`type tinyvec::Array::Item`>Item</a>]&gt;&gt; <a class=`trait` href=`https://doc.rust-lang.org/nightly/core/ops/index/trait.Index.html` title=`trait core::ops::index::Index`>Index</a>&lt;I&gt; for <a class=`struct` href=`tinyvec/struct.ArrayVec.html` title=`struct tinyvec::ArrayVec`>ArrayVec</a>&lt;A&gt;"));
          ("synthetic", VBool false);
          ("types", VArr [VStr "tinyvec::arrayvec::ArrayVec"])];
    VObj [("text", VStr (lit "impl&lt;'s, T, I&gt; <a class=`trait` href=`https://doc.rust-lang.org/nightly/core/ops/index/trait.Index.html` title=`trait core::ops::index::Index`>Index</a>&lt;I&gt; for <a class=`struct` href=`tinyvec/struct.SliceVec.html` title=`struct tinyvec::SliceVec`>SliceVec</a>&lt;'s, T&gt; <span class=`where fmt-newline`>where<br>&nbsp;&nbsp;&nbsp;&nbsp;I: <a class=`trait` href=`https://doc.rust-lang.org/nightly/core/slice/index/trait.SliceIndex.html` title=`trait core::slice::index::SliceIndex`>SliceIndex</a>&lt;[T]&gt;,&nbsp;</span>"));
          ("synthetic", VBool false);
          ("types", VArr [VStr "tinyvec::slicevec::SliceVec"])];
    VObj [("text", VStr (lit "impl&lt;A:&nbsp;<a class=`trait` href=`tinyvec/trait.Array.html` title=`trait tinyvec::Array`>Array</a>, I:&nbsp;<a class=`trait` href=`https://doc.rust-lang.org/nightly/core/slice/index/trait.SliceIndex.html` title=`trait core::slice::index::SliceIndex`>SliceIndex</a>&lt;[A::<a class=`type` href=`tinyvec/trait.Array.html#associatedtype.Item` title=`type tinyvec::Array::Item`>Item</a>]&gt;&gt; <a class=`trait` href=`https://doc.rust-lang.org/nightly/core/ops/index/trait.Index.html` title=`trait core::ops::index::Index`>Index</a>&lt;I&gt; for <a class=`enum` href=`tinyvec/enum.TinyVec.html` title=`enum tinyvec::TinyVec`>TinyVec</a>&lt;A&gt;"));
          ("synthetic", VBool false);
          ("types", VArr [VStr "tinyvec::tinyvec::TinyVec"])]
  ].

Definition url_impls : value :=
  VArr [
    VObj [("text", VStr (lit "impl <a class=`trait` href=`https://doc.rust-lang.org/nightly/core/ops/index/trait.Index.html` title=`trait core::ops::index::Index`>Index</a>&lt;<a class=`struct` href=`https://doc.rust-lang.org/nightly/core/ops/range/struct.RangeFull.html` title=`struct core::ops::range::RangeFull`>RangeFull</a>&gt; for <a class=`struct` href=`url/struct.Url.html` title=`struct url::Url`>Url</a>"));
          ("synthetic", VBool false);
          ("types", VArr [VStr "url::Url"])];
    VObj [("text", VStr (lit "impl <a class=`trait` href=`https://doc.rust-lang.org/nightly/core/ops/index/trait.Index.html` title=`trait core::ops::index::Index`>Index</a>&lt;<a class=`struct` href=`https://doc.rust-lang.org/nightly/core/ops/range/struct.RangeFrom.html` title=`struct core::ops::range::RangeFrom`>RangeFrom</a>&lt;<a class=`enum` href=`url/enum.Position.html` title=`enum url::Position`>Position</a>&gt;&gt; for <a class=`struct` href=`url/struct.Url.html` title=`struct url::Url`>Url</a>"));
          ("synthetic", VBool false);
          ("types", VArr [VStr "url::Url"])];
    VObj [("text", VStr (lit "impl <a class=`trait` href=`https://doc.rust-lang.org/nightly/core/ops/index/trait.Index.html` title=`trait core::ops::index::Index`>Index</a>&lt;<a class=`struct` href=`https://doc.rust-lang.org/nightly/core/ops/range/struct.RangeTo.html` title=`struct core::ops::range::RangeTo`>RangeTo</a>&lt;<a class=`enum` href=`url/enum.Position.html` title=`enum url::Position`>Position</a>&gt;&gt; for <a class=`struct` href=`url/struct.Url.html` title=`struct url::Url`>Url</a>"));
          ("synthetic", VBool false);
          ("types", VArr [VStr "url::Url"])];
    VObj [("text", VStr (lit "impl <a class=`trait` href=`https://doc.rust-lang.org/nightly/core/ops/index/trait.Index.html` title=`trait core::ops::index::Index`>Index</a>&lt;<a class=`struct` href=`https://doc.rust-lang.org/nightly/core/ops/range/struct.Range.html` title=`struct core::ops::range::Range`>Range</a>&lt;<a class=`enum` href=`url/enum.Position.html` title=`enum url::Position`>Position</a>&gt;&gt; for <a class=`struct` href=`url/struct.Url.html` title=`struct url::Url`>Url</a>"));
          ("synthetic", VBool false);
          ("types", VArr [VStr "url::Url"])]
  ].

(** ** The script *)

(** Lines 1 to 10: the object is built by nine assignments. *)
Definition construct : M unit :=
  declare_implementors;;
  assign_implementors "bytes" bytes_impls;;
  assign_implementors "hashbrown" hashbrown_impls;;
  assign_implementors "http" http_impls;;
  assign_implementors "indexmap" indexmap_impls;;
  assign_implementors "openssl" openssl_impls;;
  assign_implementors "slab" slab_impls;;
  assign_implementors "syn" syn_impls;;
  assign_implementors "tinyvec" tinyvec_impls;;
  assign_implementors "url" url_impls.

(** Line 11:
    [if (window.register_implementors)
       {window.register_implementors(implementors);}
     else {window.pending_implementors = implementors;}] *)
Definition register (h : Host) : M unit :=
  c ← read_window "register_implementors";
  if to_boolean c then
    f ← read_window "register_implementors";
    a ← read_implementors;
    call h f [a];;
    mret tt
  else
    a ← read_implementors;
    write_window "pending_implementors" a.

Definition script (h : Host) : M unit := construct;; register h.

(** Loading the file in a page whose window is [w]. *)
Definition initial (w : gmap string value) : machine :=
  {| window := w; implementors := None; trace := [] |}.

Definition load (h : Host) (w : gmap string value) : completion unit * machine :=
  script h (initial w).

(** The object held by the local variable once lines 1 to 10 have run. *)
Definition constructed_mapping : props :=
  default [] (implementors (snd (construct (initial ∅)))).

(** ** Reading the run *)

Definition outcome (r : completion unit * machine) : completion unit := fst r.
Definition final_window (r : completion unit * machine) : gmap string value :=
  window (snd r).
Definition own_actions (r : completion unit * machine) : list event :=
  trace (snd r).

(** The value of [window.register_implementors] the script sees. *)
Definition hook_slot (w : gmap string value) : value :=
  window_get w "register_implementors".

(** Calls the script made, writes the script made. *)
Definition own_calls (t : list event) : list (fid * list value) :=
  omap (fun e => match e with EvCall f a => Some (f, a) | _ => None end) t.

Definition own_writes (t : list event) : list (string * value) :=
  omap (fun e => match e with EvWrite k v => Some (k, v) | _ => None end) t.

(** The mapping was passed to the function in the hook slot of [w], in a
    single call. *)
Definition passed_to_hook (w : gmap string value)
    (r : completion unit * machine) : Prop :=
  exists f,
    hook_slot w = VFun f /\
    own_calls (own_actions r) = [(f, [VObj constructed_mapping])].

(** The mapping was stored in [window.pending_implementors]. *)
Definition stashed (r : completion unit * machine) : Prop :=
  own_writes (own_actions r)
  = [("pending_implementors", VObj constructed_mapping)] /\
  final_window r !! "pending_implementors" = Some (VObj constructed_mapping).

(** What an action of the script carries. *)
Definition carries_mapping (e : event) : Prop :=
  match e with
  | EvCall _ args => args = [VObj constructed_mapping]
  | EvWrite _ v => v = VObj constructed_mapping
  end.




(** ** Concrete hosts and pages *)

Definition quiet_host : Host :=
  {| host_call := fun _ _ w => (Normal VUndefined, w) |}.

(** A hook in the manner of the documentation page: it keeps what it is
    given in a property of its own. *)
Definition collecting_host : Host :=
  {| host_call := fun _ args w =>
       (Normal VUndefined, <["registered" := VArr args]> w) |}.


Definition page_without_hook : gmap string value := ∅.
Definition page_with_hook : gmap string value :=
  {[ "register_implementors" := VFun 0 ]}.
Definition page_with_number : gmap string value :=
  {[ "register_implementors" := VNum 1 ]}.
Definition page_with_null : gmap string value :=
  {[ "register_implementors" := VNull ]}.

(** ** Shape of the table *)

(** [P] holds of every record of every list of the object [o]; every
    property of [o] has to hold a list. *)
Definition Forall_records (P : value -> Prop) (o : props) : Prop :=
  Forall (fun kv => match snd kv with
                    | VArr recs => Forall P recs
                    | _ => False
                    end) o.

Definition is_string (v : value) : Prop := exists s, v = VStr s.

(** The reading of the data model with two fields per record: a markup
    string and a list of type paths, and nothing else. *)
Definition two_field_record (r : value) : Prop :=
  exists fs,
    r = VObj fs /\ List.length fs = 2 /\
    (exists k markup, In (k, VStr markup) fs) /\
    (exists k paths, In (k, VArr paths) fs /\ Forall is_string paths).

(** What the records of the source are: three properties, in this order. *)
Definition implementor_record (r : value) : Prop :=
  exists markup synthetic paths,
    r = VObj [("text", VStr markup); ("synthetic", VBool synthetic);
              ("types", VArr paths)]
    /\ Forall is_string paths.

(** The link every markup string carries for the implemented trait. *)
Definition index_trait_link : string :=
  lit "<a class=`trait` href=`https://doc.rust-lang.org/nightly/core/ops/index/trait.Index.html` title=`trait core::ops::index::Index`>Index</a>".

Definition names_index_trait (r : value) : Prop :=
  exists fs markup,
    r = VObj fs /\ obj_get fs "text" = Some (VStr markup) /\
    count_infix index_trait_link markup = 1 /\
    count_infix "core::ops::index::" markup = 1.

Definition library_identifiers : list string :=
  ["bytes"; "hashbrown"; "http"; "indexmap"; "openssl"; "slab"; "syn";
   "tinyvec"; "url"].

(** The library categories the specification enumerates, each next to the
    identifier it stands for. *)
Definition library_categories : list (string * string) :=
  [("bytes", "buffer utilities"); ("hashbrown", "hash maps");
   ("http", "HTTP header maps"); ("indexmap", "ordered maps");
   ("openssl", "TLS bindings"); ("slab", "slab allocators");
   ("syn", "parser combinators"); ("tinyvec", "small-vector types");
   ("url", "URL parsing")].

(** A list of records as the data model describes it. *)
Definition well_formed_record (r : value) : Prop :=
  exists fs markup paths,
    r = VObj fs /\
    obj_get fs "text" = Some (VStr markup) /\
    obj_get fs "types" = Some (VArr paths) /\
    Forall is_string paths.

Definition well_formed_entry (kv : string * value) : Prop :=
  exists recs,
    snd kv = VArr recs /\ recs <> [] /\ Forall well_formed_record recs.

Definition not_synthetic (r : value) : Prop :=
  exists fs, r = VObj fs /\ obj_get fs "synthetic" = Some (VBool false).

Definition one_type_path (r : value) : Prop :=
  exists fs path, r = VObj fs /\ obj_get fs "types" = Some (VArr [VStr path]).

(** ** Paths and markup *)

(** A type path cut at its [::] separators. *)
Fixpoint split_path (s : string) : list string :=
  match s with
  | EmptyString => [EmptyString]
  | String ":" (String ":" rest) => EmptyString :: split_path rest
  | String c s' =>
      match split_path s' with
      | seg :: segs => String c seg :: segs
      | [] => [String c EmptyString]
      end
  end.

Definition crate_of (path : string) : string :=
  List.hd EmptyString (split_path path).

Definition type_name (path : string) : string :=
  List.last (split_path path) EmptyString.

Definition contains (needle hay : string) : bool :=
  negb (count_infix needle hay =? 0)%nat.

(** [P key record] holds of every record of every list of [o]. *)
Definition Forall_entries (P : string -> value -> Prop) (o : props) : Prop :=
  Forall (fun kv => match snd kv with
                    | VArr recs => Forall (P (fst kv)) recs
                    | _ => False
                    end) o.

Definition filed_under_own_library (key : string) (r : value) : Prop :=
  exists fs path,
    r = VObj fs /\ obj_get fs "types" = Some (VArr [VStr path]) /\
    crate_of path = key.

(** Tags and entities of a markup string pair up: every [<] opens or closes
    an anchor or a span or is a line break, anchors and spans are closed as
    often as opened, every [&] starts one of four entities, escaped angle
    brackets come in pairs, and attribute quotes come in pairs. *)
Definition tags_balanced (markup : string) : Prop :=
  count_infix "<a " markup = count_infix "</a>" markup /\
  count_infix "<span " markup = count_infix "</span>" markup /\
  count_infix "<" markup
  = count_infix "<a " markup + count_infix "</a>" markup
    + count_infix "<span " markup + count_infix "</span>" markup
    + count_infix "<br>" markup /\
  count_infix "&" markup
  = count_infix "&lt;" markup + count_infix "&gt;" markup
    + count_infix "&amp;" markup + count_infix "&nbsp;" markup /\
  count_infix "&lt;" markup = count_infix "&gt;" markup /\
  Nat.even (count_infix (String dquote EmptyString) markup) = true.

Definition balanced_markup (r : value) : Prop :=
  exists fs markup,
    r = VObj fs /\ obj_get fs "text" = Some (VStr markup) /\
    tags_balanced markup.

(** The markup reads [impl ... for <link to the type>]: the link text is the
    last segment of the record's type path and the markup links into the
    pages of the library the record is filed under. *)
Definition markup_names_type (key : string) (r : value) : Prop :=
  exists fs markup path,
    r = VObj fs /\
    obj_get fs "text" = Some (VStr markup) /\
    obj_get fs "types" = Some (VArr [VStr path]) /\
    String.prefix "impl" markup = true /\
    count_infix " for <a class=" markup = 1 /\
    contains (String.append ">" (String.append (type_name path) "</a>"))
             markup = true /\
    contains (String.append (lit "href=`") (String.append key "/"))
             markup = true.

(** A hook that queues what it is given under [pending_implementors]
    itself and then fails. *)
Definition hijacking_host : Host :=
  {| host_call := fun _ args w =>
       (Throw (Raised (VStr "late")),
        <["pending_implementors" := VArr args]> w) |}.

Definition page_with_stale_queue : gmap string value :=
  {[ "pending_implementors" := VStr "stale" ]}.

(** * Properties *)

(** ** The helpers do what the source constructs do *)

Lemma lit_length (s : string) : String.length (lit s) = String.length s.
Proof. induction s as [|c s IH]; simpl; congruence. Qed.

Example lit_puts_quotes_back :
  lit "a=`b`" = String "a" (String "=" (String dquote (String "b" (String dquote EmptyString)))).
Proof. reflexivity. Qed.

Example obj_set_appends :
  obj_set [("a", VNull)] "b" (VBool true) = [("a", VNull); ("b", VBool true)].
Proof. reflexivity. Qed.

Example obj_set_overwrites :
  obj_set [("a", VNull); ("b", VNaN)] "a" (VBool true)
  = [("a", VBool true); ("b", VNaN)].
Proof. reflexivity. Qed.

Example ordinary_key_examples :
  ordinary_key "url" = true /\ ordinary_key "1" = false /\
  ordinary_key "__proto__" = false.
Proof. repeat split. Qed.

Lemma callable_truthy (v : value) : callable v = true -> to_boolean v = true.
Proof. destruct v; simpl; congruence. Qed.

Lemma callable_fun (v : value) : callable v = true -> exists f, v = VFun f.
Proof. destruct v; simpl; try discriminate. eauto. Qed.

Lemma hook_slot_cases (v : value) :
  to_boolean v = false \/
  (exists f, v = VFun f) \/
  (to_boolean v = true /\ callable v = false).
Proof.
  destruct (to_boolean v) eqn:Ht; [right|left; reflexivity].
  destruct (callable v) eqn:Hc; [left; apply callable_fun, Hc|right; auto].
Qed.

(** ** The three ways line 11 can go *)

Lemma constructed_mapping_eq :
  constructed_mapping =
  [("bytes", bytes_impls); ("hashbrown", hashbrown_impls);
   ("http", http_impls); ("indexmap", indexmap_impls);
   ("openssl", openssl_impls); ("slab", slab_impls); ("syn", syn_impls);
   ("tinyvec", tinyvec_impls); ("url", url_impls)].
Proof. reflexivity. Qed.

Lemma construct_run (w : gmap string value) :
  construct (initial w) =
  (Normal tt,
   {| window := w; implementors := Some constructed_mapping; trace := [] |}).
Proof. reflexivity. Qed.

Lemma load_unfold (h : Host) (w : gmap string value) :
  load h w =
  register h
    {| window := w; implementors := Some constructed_mapping; trace := [] |}.
Proof.
  unfold load, script, mbind, M_bind, bind. rewrite construct_run. reflexivity.
Qed.

Lemma load_falsy (h : Host) (w : gmap string value) :
  to_boolean (hook_slot w) = false ->
  load h w =
  (Normal tt,
   {| window := <["pending_implementors" := VObj constructed_mapping]> w;
      implementors := Some constructed_mapping;
      trace := [EvWrite "pending_implementors" (VObj constructed_mapping)] |}).
Proof.
  intros Hf. rewrite load_unfold.
  unfold register, mbind, mret, M_bind, M_ret, bind, read_window,
    read_implementors, write_window; simpl.
  unfold hook_slot in Hf. rewrite Hf. reflexivity.
Qed.

Lemma load_function (h : Host) (w : gmap string value) (f : fid) :
  hook_slot w = VFun f ->
  load h w =
  (match fst (host_call h f [VObj constructed_mapping] w) with
   | Normal _ => Normal tt
   | Throw e => Throw e
   end,
   {| window := snd (host_call h f [VObj constructed_mapping] w);
      implementors := Some constructed_mapping;
      trace := [EvCall f [VObj constructed_mapping]] |}).
Proof.
  intros Hf. rewrite load_unfold.
  unfold register, mbind, mret, M_bind, M_ret, bind, read_window,
    read_implementors, call, ret; simpl.
  unfold hook_slot in Hf. rewrite Hf. simpl. rewrite Hf.
  destruct (host_call h f [VObj constructed_mapping] w) as [[v|e] w'];
    reflexivity.
Qed.

Lemma load_not_callable (h : Host) (w : gmap string value) :
  to_boolean (hook_slot w) = true ->
  callable (hook_slot w) = false ->
  load h w =
  (Throw (TypeError "not a function"),
   {| window := w; implementors := Some constructed_mapping; trace := [] |}).
Proof.
  intros Ht Hc. rewrite load_unfold.
  unfold register, mbind, mret, M_bind, M_ret, bind, read_window,
    read_implementors, call, throw; simpl.
  unfold hook_slot in Ht, Hc. rewrite Ht. simpl.
  destruct (window_get w "register_implementors"); try discriminate;
    reflexivity.
Qed.

(** Split on how [window.register_implementors] reads and rewrite the run. *)
Ltac by_hook h w :=
  let Hf := fresh "Hfalsy" in
  let Hfun := fresh "Hfun" in
  let Ht := fresh "Htruthy" in
  let Hc := fresh "Hnocall" in
  let f := fresh "f" in
  destruct (hook_slot_cases (hook_slot w)) as [Hf|[[f Hfun]|[Ht Hc]]];
  [ rewrite (load_falsy h w Hf)
  | rewrite (load_function h w f Hfun)
  | rewrite (load_not_callable h w Ht Hc) ].

(** Walk the nine lists, record by record, without unfolding the markup. *)
Ltac open_lists :=
  cbv [snd bytes_impls hashbrown_impls http_impls indexmap_impls openssl_impls
       slab_impls syn_impls tinyvec_impls url_impls].

Ltac each_record tac :=
  rewrite constructed_mapping_eq; unfold Forall_records;
  repeat first
    [ apply Forall_nil_2 | apply Forall_cons_2 | progress open_lists
    | solve [tac] ].

(** The nine keys, and the field names of the records, are ordinary. *)
Lemma keys_are_ordinary :
  forallb ordinary_key (obj_keys constructed_mapping) = true /\
  forallb ordinary_key ["text"; "synthetic"; "types"] = true.
Proof. split; vm_compute; reflexivity. Qed.

Lemma keys_no_dup : NoDup (obj_keys constructed_mapping).
Proof. apply (bool_decide_unpack _). vm_compute. reflexivity. Qed.

(** ** The table *)

(** C2, as the claim states it, fails: the first record of ["bytes"] (like
    every record) has three fields, the third being ["synthetic"]. *)
Lemma records_are_not_two_field :
  ~ Forall_records two_field_record constructed_mapping.
Proof.
  rewrite constructed_mapping_eq. unfold Forall_records. intros H.
  apply Forall_inv in H. cbv [snd bytes_impls] in H. apply Forall_inv in H.
  destruct H as (fs & Heq & Hlen & _).
  injection Heq as <-. discriminate Hlen.
Qed.

(** C2, amended: every record in every list of the constructed mapping
    carries exactly three fields, in this order: ["text"], a markup string;
    ["synthetic"], a boolean; ["types"], a list of type-path strings. No
    record carries any other field. *)
Theorem records_have_three_fields :
  Forall_records implementor_record constructed_mapping.
Proof.
  each_record ltac:(do 3 eexists; split;
                    [reflexivity | repeat constructor; eexists; reflexivity]).
Qed.

(** C3: the keys of the constructed mapping are exactly the nine library
    identifiers bytes, hashbrown, http, indexmap, openssl, slab, syn,
    tinyvec and url, each once, one per library category of the
    specification; and every markup string names the one trait
    [core::ops::index::Index]: it links to it exactly once and mentions no
    other item of [core::ops::index]. *)
Theorem keys_are_the_nine_libraries :
  obj_keys constructed_mapping = library_identifiers /\
  NoDup (obj_keys constructed_mapping) /\
  list_to_set (obj_keys constructed_mapping)
    =@{gset string} {[ "bytes"; "hashbrown"; "http"; "indexmap"; "openssl";
                       "slab"; "syn"; "tinyvec"; "url" ]} /\
  obj_keys constructed_mapping = map fst library_categories /\
  Forall_records names_index_trait constructed_mapping.
Proof.
  split; [reflexivity|]. split; [exact keys_no_dup|]. split.
  { rewrite constructed_mapping_eq. cbv [obj_keys map fst list_to_set].
    set_solver. }
  split; [reflexivity|].
  each_record ltac:(do 2 eexists; split; [reflexivity|];
                    split; [reflexivity|];
                    split; vm_compute; reflexivity).
Qed.

(** C7: the constructed object is a well-formed mapping from library
    identifiers to ordered sequences of implementor records. Keys are
    strings (the type of property names), no key occurs twice, every value
    is a non-empty list, every record's markup field is a string and every
    element of every record's type-path list is a string. *)
Theorem mapping_is_well_formed :
  Forall well_formed_entry constructed_mapping /\
  NoDup (obj_keys constructed_mapping).
Proof.
  split; [|exact keys_no_dup].
  rewrite constructed_mapping_eq.
  repeat (apply Forall_cons_2;
          [eexists; split; [reflexivity|]; split; [discriminate|];
           repeat (apply Forall_cons_2;
                   [do 3 eexists; split; [reflexivity|];
                    split; [reflexivity|]; split; [reflexivity|];
                    repeat constructor; eexists; reflexivity|]);
           apply Forall_nil_2|]).
  apply Forall_nil_2.
Qed.

(** C8: every record in every list of the constructed mapping has a
    ["synthetic"] field whose value is [false]. *)
Theorem no_record_is_synthetic :
  Forall_records not_synthetic constructed_mapping.
Proof.
  each_record ltac:(eexists; split; reflexivity).
Qed.

(** C9: every record's ["types"] list contains exactly one type-path
    string. *)
Theorem every_record_has_one_type :
  Forall_records one_type_path constructed_mapping.
Proof.
  each_record ltac:(do 2 eexists; split; reflexivity).
Qed.

(** ** Line 11: the hand-off *)

(** C1, as the claim states it, fails: when [window.register_implementors]
    holds the number 1 the property is there and the test of line 11
    succeeds, but the call raises a [TypeError]; the script makes no call
    and no write, so the mapping is neither passed to a hook nor stored in
    [window.pending_implementors]. *)
Lemma number_in_hook_slot_neither :
  page_with_number !! "register_implementors" = Some (VNum 1) /\
  to_boolean (hook_slot page_with_number) = true /\
  own_actions (load quiet_host page_with_number) = [] /\
  final_window (load quiet_host page_with_number) = page_with_number /\
  ~ passed_to_hook page_with_number (load quiet_host page_with_number) /\
  ~ stashed (load quiet_host page_with_number) /\
  outcome (load quiet_host page_with_number)
  = Throw (TypeError "not a function").
Proof.
  assert (Ht : to_boolean (hook_slot page_with_number) = true) by reflexivity.
  assert (Hc : callable (hook_slot page_with_number) = false) by reflexivity.
  rewrite (load_not_callable quiet_host _ Ht Hc).
  repeat split.
  - intros (f & _ & Hf). discriminate Hf.
  - intros [Hw _]. discriminate Hw.
Qed.

(** C1, amended: if [window.register_implementors] is a function, the
    constructed mapping is passed to it in a single call and the script
    stores nothing; if it is falsy (absent, undefined, null, false, 0, NaN
    or the empty string), the mapping is stored in
    [window.pending_implementors] and the script calls nothing; in these
    cases exactly one of the two effects occurs. If it is truthy but not a
    function, the call raises a [TypeError] and neither effect occurs. In
    no run does the script both call and store. *)
Theorem hand_off_by_hook_value (h : Host) (w : gmap string value) :
  (callable (hook_slot w) = true ->
     passed_to_hook w (load h w) /\ ~ stashed (load h w) /\
     own_writes (own_actions (load h w)) = []) /\
  (to_boolean (hook_slot w) = false ->
     stashed (load h w) /\ ~ passed_to_hook w (load h w) /\
     own_calls (own_actions (load h w)) = []) /\
  (to_boolean (hook_slot w) = true -> callable (hook_slot w) = false ->
     ~ passed_to_hook w (load h w) /\ ~ stashed (load h w) /\
     own_calls (own_actions (load h w)) = [] /\
     own_writes (own_actions (load h w)) = [] /\
     outcome (load h w) = Throw (TypeError "not a function")) /\
  (own_calls (own_actions (load h w)) = [] \/
   own_writes (own_actions (load h w)) = []).
Proof.
  split; [|split; [|split]].
  - intros Hc. destruct (callable_fun _ Hc) as [f Hf].
    rewrite (load_function h w f Hf). split; [|split].
    + exists f. split; [exact Hf|reflexivity].
    + intros [Hw _]. discriminate Hw.
    + reflexivity.
  - intros Hf. rewrite (load_falsy h w Hf). split; [|split].
    + split; [reflexivity|]. unfold final_window; simpl.
      apply lookup_insert_eq.
    + intros (f & _ & Hc). discriminate Hc.
    + reflexivity.
  - intros Ht Hc. rewrite (load_not_callable h w Ht Hc). repeat split.
    + intros (f & _ & Hf). discriminate Hf.
    + intros [Hw _]. discriminate Hw.
  - by_hook h w; [left|right|left]; reflexivity.
Qed.

Lemma hand_off_by_hook_value_witness :
  (passed_to_hook page_with_hook (load collecting_host page_with_hook) /\
   ~ stashed (load collecting_host page_with_hook) /\
   own_writes (own_actions (load collecting_host page_with_hook)) = []) /\
  (stashed (load collecting_host page_with_null) /\
   ~ passed_to_hook page_with_null (load collecting_host page_with_null) /\
   own_calls (own_actions (load collecting_host page_with_null)) = []) /\
  (~ passed_to_hook page_with_number (load collecting_host page_with_number) /\
   ~ stashed (load collecting_host page_with_number) /\
   own_calls (own_actions (load collecting_host page_with_number)) = [] /\
   own_writes (own_actions (load collecting_host page_with_number)) = [] /\
   outcome (load collecting_host page_with_number)
   = Throw (TypeError "not a function")).
Proof.
  split; [|split].
  - apply (proj1 (hand_off_by_hook_value collecting_host page_with_hook)).
    reflexivity.
  - apply (proj1 (proj2 (hand_off_by_hook_value collecting_host page_with_null))).
    reflexivity.
  - apply (proj1 (proj2 (proj2
             (hand_off_by_hook_value collecting_host page_with_number))));
      reflexivity.
Defined.

(** C4: the mapping is constructed once, by lines 1 to 10, and line 11 does
    not change it: the local variable still holds the constructed object
    when the script ends, and the value passed to
    [window.register_implementors] or stored in
    [window.pending_implementors] is exactly that object, the nine lists of
    the data literal under their nine keys. *)
Theorem mapping_handed_off_as_constructed (h : Host) (w : gmap string value) :
  implementors (snd (construct (initial w))) = Some constructed_mapping /\
  implementors (snd (load h w)) = Some constructed_mapping /\
  Forall carries_mapping (own_actions (load h w)) /\
  (if to_boolean (hook_slot w) then True
   else final_window (load h w) !! "pending_implementors"
        = Some (VObj constructed_mapping)) /\
  constructed_mapping =
    [("bytes", bytes_impls); ("hashbrown", hashbrown_impls);
     ("http", http_impls); ("indexmap", indexmap_impls);
     ("openssl", openssl_impls); ("slab", slab_impls); ("syn", syn_impls);
     ("tinyvec", tinyvec_impls); ("url", url_impls)].
Proof.
  split; [reflexivity|].
  split; [by_hook h w; reflexivity|].
  split; [by_hook h w; repeat constructor|].
  split; [|reflexivity].
  destruct (to_boolean (hook_slot w)) eqn:Hf; [exact I|].
  rewrite (load_falsy h w Hf). apply lookup_insert_eq.
Qed.

(** C5: the only global the script itself writes is
    [window.pending_implementors], and it writes it only in the else branch
    of line 11, where [window.register_implementors] is falsy and the page
    is otherwise left as it was. When the hook is there, the script writes
    no global: the window after the run is the one the hook left (the
    untouched one when the call could not be made). *)
Theorem only_pending_slot_written (h : Host) (w : gmap string value) :
  Forall (fun kv => fst kv = "pending_implementors")
         (own_writes (own_actions (load h w))) /\
  (own_writes (own_actions (load h w)) <> [] ->
     to_boolean (hook_slot w) = false) /\
  (to_boolean (hook_slot w) = true ->
     own_writes (own_actions (load h w)) = []) /\
  (to_boolean (hook_slot w) = false ->
     forall k, k <> "pending_implementors" ->
               final_window (load h w) !! k = w !! k) /\
  (forall f, hook_slot w = VFun f ->
     final_window (load h w)
     = snd (host_call h f [VObj constructed_mapping] w)) /\
  (to_boolean (hook_slot w) = true -> callable (hook_slot w) = false ->
     final_window (load h w) = w).
Proof.
  repeat split.
  - by_hook h w; repeat constructor.
  - by_hook h w; simpl; congruence.
  - intros Ht. by_hook h w; simpl; congruence.
  - intros Hf k Hk. rewrite (load_falsy h w Hf).
    unfold final_window; simpl. apply lookup_insert_ne. congruence.
  - intros f Hf. rewrite (load_function h w f Hf). reflexivity.
  - intros Ht Hc. rewrite (load_not_callable h w Ht Hc). reflexivity.
Qed.

Lemma only_pending_slot_written_witness :
  to_boolean (hook_slot page_without_hook) = false /\
  own_writes (own_actions (load collecting_host page_with_hook)) = [] /\
  final_window (load collecting_host page_without_hook) !! "registered"
  = page_without_hook !! "registered" /\
  final_window (load collecting_host page_with_hook)
  = snd (host_call collecting_host 0 [VObj constructed_mapping] page_with_hook) /\
  final_window (load collecting_host page_with_number) = page_with_number.
Proof.
  pose proof (only_pending_slot_written collecting_host page_without_hook)
    as (_ & Hw & _ & Hframe & _ & _).
  pose proof (only_pending_slot_written collecting_host page_with_hook)
    as (_ & _ & Hnone & _ & Hhook & _).
  pose proof (only_pending_slot_written collecting_host page_with_number)
    as (_ & _ & _ & _ & _ & Hsame).
  split; [apply Hw; discriminate|].
  split; [apply Hnone; reflexivity|].
  split; [apply Hframe; [reflexivity|discriminate]|].
  split; [apply Hhook; reflexivity|].
  apply Hsame; reflexivity.
Defined.

(** C6: in a page whose window has no [register_implementors], or has
    there a function that returns normally when called with the mapping,
    loading the script completes without raising an error. *)
Theorem load_completes (h : Host) (w : gmap string value) :
  (w !! "register_implementors" = None \/
   exists f v,
     w !! "register_implementors" = Some (VFun f) /\
     fst (host_call h f [VObj constructed_mapping] w) = Normal v) ->
  outcome (load h w) = Normal tt.
Proof.
  intros [Habsent | (f & v & Hf & Hret)].
  - rewrite load_falsy; [reflexivity|].
    unfold hook_slot, window_get. rewrite Habsent. reflexivity.
  - rewrite (load_function h w f).
    + unfold outcome; simpl. rewrite Hret. reflexivity.
    + unfold hook_slot, window_get. rewrite Hf. reflexivity.
Qed.

Lemma load_completes_witness :
  outcome (load collecting_host page_without_hook) = Normal tt /\
  outcome (load collecting_host page_with_hook) = Normal tt.
Proof.
  split.
  - apply (load_completes collecting_host page_without_hook).
    left. reflexivity.
  - apply (load_completes collecting_host page_with_hook).
    right. exists 0, VUndefined. split; reflexivity.
Defined.




(** * Further properties of the script *)

(** ** Lines 1 to 10 from any state *)

(** X4: whatever the local variable, the window and the record of actions
    were before, lines 1 to 10 complete normally, leave the window and the
    record of actions as they were, and leave the local variable holding
    the freshly built nine-entry object; earlier content of the variable
    does not survive. *)
Theorem construct_from_any_state (m : machine) :
  construct m =
  (Normal tt,
   {| window := window m; implementors := Some constructed_mapping;
      trace := trace m |}).
Proof. destruct m as [w o t]. reflexivity. Qed.

(** ** Line 11: failures and repeated loads *)

Lemma hook_slot_pending (w : gmap string value) (v : value) :
  hook_slot (<["pending_implementors" := v]> w) = hook_slot w.
Proof.
  unfold hook_slot, window_get. rewrite lookup_insert_ne; [reflexivity|].
  discriminate.
Qed.

(** X5: an exception of the hook is not caught: when
    [window.register_implementors] is a function that throws, loading the
    script ends with that same exception, after exactly one call, and the
    script stores nothing in [window.pending_implementors]; the window is
    left as the hook left it. *)
Theorem hook_exception_propagates
    (h : Host) (w : gmap string value) (f : fid) (e : thrown) :
  hook_slot w = VFun f ->
  fst (host_call h f [VObj constructed_mapping] w) = Throw e ->
  outcome (load h w) = Throw e /\
  own_actions (load h w) = [EvCall f [VObj constructed_mapping]] /\
  ~ stashed (load h w) /\
  final_window (load h w)
  = snd (host_call h f [VObj constructed_mapping] w).
Proof.
  intros Hf He. rewrite (load_function h w f Hf).
  unfold outcome, own_actions, final_window; simpl. rewrite He.
  repeat split. intros [Hw _]. discriminate Hw.
Qed.

Lemma hook_exception_propagates_witness :
  outcome (load hijacking_host page_with_hook) = Throw (Raised (VStr "late")) /\
  own_actions (load hijacking_host page_with_hook)
  = [EvCall 0 [VObj constructed_mapping]] /\
  ~ stashed (load hijacking_host page_with_hook) /\
  final_window (load hijacking_host page_with_hook)
  = snd (host_call hijacking_host 0 [VObj constructed_mapping] page_with_hook).
Proof.
  apply (hook_exception_propagates hijacking_host page_with_hook 0
           (Raised (VStr "late"))); reflexivity.
Defined.

(** X6: loading the script completes normally exactly when
    [window.register_implementors] is falsy, or is a function whose call
    with the mapping returns normally; in every other case (a truthy value
    that is not a function, a hook that throws) the load raises. *)
Theorem load_normal_iff (h : Host) (w : gmap string value) :
  outcome (load h w) = Normal tt <->
  (to_boolean (hook_slot w) = false \/
   exists f v,
     hook_slot w = VFun f /\
     fst (host_call h f [VObj constructed_mapping] w) = Normal v).
Proof.
  split.
  - intros Hn.
    destruct (hook_slot_cases (hook_slot w)) as [Hf|[[f Hfun]|[Ht Hc]]].
    + left. exact Hf.
    + right. rewrite (load_function h w f Hfun) in Hn.
      unfold outcome in Hn; simpl in Hn.
      destruct (fst (host_call h f [VObj constructed_mapping] w)) as [v|e] eqn:E;
        [|discriminate]. exists f, v. auto.
    + rewrite (load_not_callable h w Ht Hc) in Hn. discriminate Hn.
  - intros [Hf | (f & v & Hfun & Hret)].
    + rewrite (load_falsy h w Hf). reflexivity.
    + rewrite (load_function h w f Hfun). unfold outcome; simpl.
      rewrite Hret. reflexivity.
Qed.

Lemma load_normal_iff_witness :
  outcome (load quiet_host page_with_null) = Normal tt /\
  (to_boolean (hook_slot page_with_hook) = false \/
   exists f v,
     hook_slot page_with_hook = VFun f /\
     fst (host_call quiet_host f [VObj constructed_mapping] page_with_hook)
     = Normal v).
Proof.
  split.
  - apply (proj2 (load_normal_iff quiet_host page_with_null)).
    left. reflexivity.
  - apply (proj1 (load_normal_iff quiet_host page_with_hook)).
    reflexivity.
Defined.

(** X8: without a hook, what [window.pending_implementors] held before is
    discarded: the run does not depend on it, so a table queued earlier is
    replaced, not appended to. *)
Theorem stash_discards_previous
    (h : Host) (w : gmap string value) (v : value) :
  to_boolean (hook_slot w) = false ->
  load h (<["pending_implementors" := v]> w) = load h w.
Proof.
  intros Hf.
  rewrite (load_falsy h w Hf).
  rewrite (load_falsy h (<["pending_implementors" := v]> w));
    [|rewrite hook_slot_pending; exact Hf].
  rewrite insert_insert_eq. reflexivity.
Qed.

Lemma stash_discards_previous_witness :
  load quiet_host page_with_stale_queue = load quiet_host page_without_hook.
Proof.
  unfold page_with_stale_queue. rewrite <- insert_empty.
  apply (stash_discards_previous quiet_host page_without_hook (VStr "stale")).
  reflexivity.
Defined.

(** X9: without a hook, loading the script a second time changes nothing:
    the second load, run on the window the first one left, again takes the
    store branch and gives the same result and the same window. *)
Theorem load_twice_without_hook (h : Host) (w : gmap string value) :
  to_boolean (hook_slot w) = false ->
  load h (final_window (load h w)) = load h w.
Proof.
  intros Hf. rewrite (load_falsy h w Hf). unfold final_window; simpl.
  rewrite load_falsy; [|rewrite hook_slot_pending; exact Hf].
  rewrite insert_insert_eq. reflexivity.
Qed.

Lemma load_twice_without_hook_witness :
  load quiet_host (final_window (load quiet_host page_with_null))
  = load quiet_host page_with_null.
Proof.
  apply (load_twice_without_hook quiet_host page_with_null). reflexivity.
Defined.

(** ** More on the table *)

Example split_path_example :
  split_path "bytes::buf::uninit_slice::UninitSlice"
  = ["bytes"; "buf"; "uninit_slice"; "UninitSlice"].
Proof. reflexivity. Qed.

Example split_path_no_separator : split_path "usize" = ["usize"].
Proof. reflexivity. Qed.

Ltac each_entry tac :=
  rewrite constructed_mapping_eq; unfold Forall_entries;
  repeat first
    [ apply Forall_nil_2 | apply Forall_cons_2
    | progress (open_lists; cbv [fst]) | solve [tac] ].

(** X10: every record is filed under the library its type belongs to: the
    first segment of the record's type path is the key of the list the
    record is in. *)
Theorem types_filed_under_own_library :
  Forall_entries filed_under_own_library constructed_mapping.
Proof.
  each_entry ltac:(do 2 eexists; split; [reflexivity|];
                   split; [reflexivity|]; vm_compute; reflexivity).
Qed.

(** X11: every markup string is well formed as far as tags and entities
    go: each [<] belongs to an anchor tag, a span tag or a line break,
    anchors and spans are closed as often as they are opened, each [&]
    starts one of the entities lt, gt, amp and nbsp, escaped angle brackets
    pair up, and the double quotes of attributes pair up. *)
Theorem markup_is_balanced :
  Forall_records balanced_markup constructed_mapping.
Proof.
  each_record ltac:(do 2 eexists; split; [reflexivity|];
                    split; [reflexivity|];
                    repeat split; vm_compute; reflexivity).
Qed.

(** X12: every markup string describes the record it is in: it starts with
    [impl], has a single [for] followed by a link, contains a link whose
    text is the last segment of the record's type path, and links into the
    pages of the library the record is filed under. *)
Theorem markup_names_its_type :
  Forall_entries markup_names_type constructed_mapping.
Proof.
  each_entry ltac:(do 3 eexists; split; [reflexivity|];
                   split; [reflexivity|]; split; [reflexivity|];
                   repeat split; vm_compute; reflexivity).
Qed.

(** X13: the keys are assigned in strictly ascending order, so enumerating
    the object lists the libraries alphabetically. *)
Theorem keys_are_sorted :
  StronglySorted (fun a b => String.ltb a b = true)
                 (obj_keys constructed_mapping).
Proof.
  rewrite constructed_mapping_eq. cbv [obj_keys map fst].
  repeat (apply SSorted_cons;
          [|repeat (apply Forall_cons_2; [vm_compute; reflexivity|]);
            apply Forall_nil_2]).
  apply SSorted_nil.
Qed.
